(** * Heartify login screen: session bootstrap and login submission

    A shallow embedding of [src/app/login.tsx].  The two asynchronous
    functions of the component, [checkExistingAuth] and [handleLogin], are
    written in a small monad that threads the component state, the device
    storage and the route last given to the router, collects the observable
    effects (network requests, storage operations, alerts, router calls,
    console output and re-renders of the component) in a trace, and
    implements the completion records of JavaScript ([return], [throw],
    [try]/[catch]/[finally]).

    Conventions.
    - A JavaScript string is a Rocq [string]; every character stands for one
      code unit in the range U+0000..U+00FF.
    - Values that come out of [response.json()] are [jsval]s.  Numbers are
      kept abstract (class [JSNumber]): only their conversion to a string
      and to a boolean is ever needed.
    - [AsyncStorage], [fetch], [Alert] and the router are external; the
      replies of the first two are read from an environment [Env], and the
      router only records what it is asked.
    - Every awaited call settles: it resolves or it rejects.  A request
      that stays pending for ever (no [fetch] of the source sets a timeout)
      is outside the model, so every statement is about runs that
      complete. *)

From Stdlib Require Import ZArith Ascii String List Bool.
From stdpp Require Import base option gmap strings list pretty.

Set Warnings "-register-all".

Local Open Scope string_scope.
Local Open Scope Z_scope.

(** ** Strings *)

Module JSString.

(** The double quote and the backslash, by code. *)
Definition dquote : string := String "034"%char EmptyString.
Definition backslash : string := String "092"%char EmptyString.

(** WhiteSpace and LineTerminator code units below U+0100, as used by
    [String.prototype.trim]. *)
Definition is_WhiteSpace (c : ascii) : bool :=
  bool_decide (N_of_ascii c ∈ [9; 10; 11; 12; 13; 32; 160]%N).

Fixpoint trimStart_units (l : list ascii) : list ascii :=
  match l with
  | [] => []
  | c :: l' => if is_WhiteSpace c then trimStart_units l' else l
  end.

Definition trimStart (s : string) : string :=
  string_of_list_ascii (trimStart_units (list_ascii_of_string s)).

Definition trimEnd (s : string) : string :=
  string_of_list_ascii
    (rev (trimStart_units (rev (list_ascii_of_string s)))).

(** [s.trim()] *)
Definition trim (s : string) : string := trimEnd (trimStart s).

(** ToBoolean of a string: only the empty string is falsy. *)
Definition truthy (s : string) : bool :=
  match s with
  | EmptyString => false
  | String _ _ => true
  end.

Definition hex_digit (n : N) : string :=
  match n with
  | 0 => "0" | 1 => "1" | 2 => "2" | 3 => "3" | 4 => "4" | 5 => "5"
  | 6 => "6" | 7 => "7" | 8 => "8" | 9 => "9" | 10 => "a" | 11 => "b"
  | 12 => "c" | 13 => "d" | 14 => "e" | _ => "f"
  end%N.

(** One code unit of QuoteJSONString. *)
Definition quote_unit (c : ascii) : string :=
  let n := N_of_ascii c in
  if (n =? 8)%N then backslash +:+ "b"
  else if (n =? 9)%N then backslash +:+ "t"
  else if (n =? 10)%N then backslash +:+ "n"
  else if (n =? 12)%N then backslash +:+ "f"
  else if (n =? 13)%N then backslash +:+ "r"
  else if (n =? 34)%N then backslash +:+ dquote
  else if (n =? 92)%N then backslash +:+ backslash
  else if (n <? 32)%N then
    backslash +:+ "u00" +:+ hex_digit (n / 16) +:+ hex_digit (n mod 16)
  else String c EmptyString.

Fixpoint quote_units (s : string) : string :=
  match s with
  | EmptyString => EmptyString
  | String c s' => quote_unit c +:+ quote_units s'
  end.

(** QuoteJSONString: the JSON text of a string value. *)
Definition QuoteJSONString (s : string) : string :=
  dquote +:+ quote_units s +:+ dquote.

(** [l.join(",")] on already converted elements. *)
Fixpoint join_comma (l : list string) : string :=
  match l with
  | [] => ""
  | [x] => x
  | x :: l' => x +:+ "," +:+ join_comma l'
  end.

End JSString.

(** ** JavaScript values *)

(** What the program needs of the Number type. *)
Class JSNumber (number : Type) := {
  Number_toString : number -> string;
  Number_isFinite : number -> bool;
  (** false exactly for +0, -0 and NaN *)
  Number_ToBoolean : number -> bool;
}.

(** The safe integers: of magnitude at most 2^53 - 1, each is a Number
    exactly and prints as a decimal integer. *)
Definition safe_integer : Type :=
  { z : Z | (Z.abs z <=? 9007199254740991) = true }.

#[export] Instance safe_integer_JSNumber : JSNumber safe_integer := {
  Number_toString := fun n => pretty (proj1_sig n);
  Number_isFinite := fun _ => true;
  Number_ToBoolean := fun n => negb (proj1_sig n =? 0);
}.

(** ** Data that does not mention JavaScript values *)

(** A thrown value or rejection reason: an [Error] with name and message. *)
Record exn : Type := Exn { exn_name : string; exn_message : string }.

Definition TypeError (msg : string) : exn := Exn "TypeError" msg.

Record Request : Type := {
  url : string;
  method : string;
  headers : list (string * string);
  body : option string;
}.

(** The only callback the program hands to an alert button:
    [() => { router.replace(href) }]. *)
Inductive callback : Type :=
| ReplaceRoute (href : string).

Record AlertButton : Type := {
  text : string;
  onPress : callback;
}.

Inductive Screen : Type :=
| LoadingScreen
| LoginForm.

(** Component state ([useState]), device storage, and the route that the
    router was last given. *)
Record World : Type := {
  username : string;
  password : string;
  isLoading : bool;
  showPassword : bool;
  isCheckingAuth : bool;
  storage : gmap string string;
  route : string;
}.

(** The route of this screen ([app/login.tsx]). *)
Definition login_route : string := "/login".

(** The state of the component when it mounts. *)
Definition mount (store : gmap string string) : World :=
  {| username := ""; password := ""; isLoading := false;
     showPassword := false; isCheckingAuth := true;
     storage := store; route := login_route |}.

(** What the component renders (login.tsx:174-185): the loading screen
    while [isCheckingAuth], the login form otherwise. *)
Definition visible (w : World) : Screen :=
  if isCheckingAuth w then LoadingScreen else LoginForm.

Definition with_username (v : string) (w : World) : World :=
  {| username := v; password := password w; isLoading := isLoading w;
     showPassword := showPassword w; isCheckingAuth := isCheckingAuth w;
     storage := storage w; route := route w |}.

Definition with_password (v : string) (w : World) : World :=
  {| username := username w; password := v; isLoading := isLoading w;
     showPassword := showPassword w; isCheckingAuth := isCheckingAuth w;
     storage := storage w; route := route w |}.

Definition with_isLoading (v : bool) (w : World) : World :=
  {| username := username w; password := password w; isLoading := v;
     showPassword := showPassword w; isCheckingAuth := isCheckingAuth w;
     storage := storage w; route := route w |}.

Definition with_showPassword (v : bool) (w : World) : World :=
  {| username := username w; password := password w; isLoading := isLoading w;
     showPassword := v; isCheckingAuth := isCheckingAuth w;
     storage := storage w; route := route w |}.

Definition with_isCheckingAuth (v : bool) (w : World) : World :=
  {| username := username w; password := password w; isLoading := isLoading w;
     showPassword := showPassword w; isCheckingAuth := v;
     storage := storage w; route := route w |}.

Definition with_storage (v : gmap string string) (w : World) : World :=
  {| username := username w; password := password w; isLoading := isLoading w;
     showPassword := showPassword w; isCheckingAuth := isCheckingAuth w;
     storage := v; route := route w |}.

Definition with_route (v : string) (w : World) : World :=
  {| username := username w; password := password w; isLoading := isLoading w;
     showPassword := showPassword w; isCheckingAuth := isCheckingAuth w;
     storage := storage w; route := v |}.

(** Completion records. *)
Inductive completion (A : Type) : Type :=
| Normal (a : A)
| Returned
| Thrown (e : exn).
Arguments Normal {A} a.
Arguments Returned {A}.
Arguments Thrown {A} e.

Section Heartify.

Context {number : Type} `{JSNumber number}.

(** [JObj] lists the own properties in enumeration order; keys are unique. *)
Inductive jsval : Type :=
| JUndefined
| JNull
| JBool (b : bool)
| JNum (n : number)
| JStr (s : string)
| JArr (elems : list jsval)
| JObj (props : list (string * jsval)).

Definition ToBoolean (v : jsval) : bool :=
  match v with
  | JUndefined | JNull => false
  | JBool b => b
  | JNum n => Number_ToBoolean n
  | JStr s => JSString.truthy s
  | JArr _ | JObj _ => true
  end.

Fixpoint own_property (props : list (string * jsval)) (key : string)
  : option jsval :=
  match props with
  | [] => None
  | (k, v) :: props' =>
      if String.eqb k key then Some v else own_property props' key
  end.

(** ToString.  [None] stands for the TypeError thrown when an object
    shadows [toString] with a property that is not callable (no value that
    JSON can produce is callable). *)
Fixpoint ToString (v : jsval) : option string :=
  match v with
  | JUndefined => Some "undefined"
  | JNull => Some "null"
  | JBool b => Some (if b then "true" else "false")
  | JNum n => Some (Number_toString n)
  | JStr s => Some s
  | JArr elems =>
      JSString.join_comma <$>
        mapM (fun e => match e with
                       | JUndefined | JNull => Some ""
                       | _ => ToString e
                       end) elems
  | JObj props =>
      match own_property props "toString" with
      | Some _ => None
      | None => Some "[object Object]"
      end
  end.

(** SerializeJSONProperty: [None] is the result [undefined]. *)
Fixpoint serialize (v : jsval) : option string :=
  match v with
  | JUndefined => None
  | JNull => Some "null"
  | JBool b => Some (if b then "true" else "false")
  | JNum n => Some (if Number_isFinite n then Number_toString n else "null")
  | JStr s => Some (JSString.QuoteJSONString s)
  | JArr elems =>
      Some ("[" +:+
            JSString.join_comma
              (map (fun e => default "null" (serialize e)) elems)
            +:+ "]")
  | JObj props =>
      Some ("{" +:+
            JSString.join_comma
              (flat_map (fun p => match serialize (snd p) with
                                  | Some s =>
                                      [JSString.QuoteJSONString (fst p)
                                       +:+ ":" +:+ s]
                                  | None => []
                                  end) props)
            +:+ "}")
  end.

(** [JSON.stringify(v)] as a value: a string or [undefined]. *)
Definition JSON_stringify (v : jsval) : jsval :=
  match serialize v with
  | Some s => JStr s
  | None => JUndefined
  end.


(** ** The world outside the two functions *)

(** What [await response.json()] does: reject (the body is not JSON) or
    resolve with the parsed value. *)
Inductive json_result : Type :=
| JsonRejects (e : exn)
| JsonResolves (data : jsval).

Record Response : Type := {
  status : Z;
  json : json_result;
}.

(** [response.ok]: the status is in the range 200-299. *)
Definition response_ok (r : Response) : bool :=
  (200 <=? status r) && (status r <=? 299).

(** How [await fetch(...)] settles.  A request that never settles is not
    modelled. *)
Inductive fetch_result : Type :=
| FetchRejects (e : exn)
| FetchResolves (r : Response).

Inductive StorageOp : Type :=
| MultiGet (keys : list string)
| MultiSet (keyValuePairs : list (string * jsval))
| MultiRemove (keys : list string).

(** The environment: how the server answers a request, and whether the
    device storage fails on an operation. *)
Record Env : Type := {
  fetch_reply : Request -> fetch_result;
  storage_fault : StorageOp -> option exn;
}.

Inductive event : Type :=
| EvFetch (req : Request) (res : fetch_result)
| EvStorage (op : StorageOp) (fault : option exn)
| EvAlert (title : string) (message : jsval) (buttons : list AlertButton)
| EvReplace (href : string)
| EvPush (href : string)
| EvConsoleError (label : string) (e : exn)
| EvRender (s : Screen).

(** ** Completions and the monad *)

Record Result (A : Type) : Type := mkResult {
  outcome : completion A;
  world : World;
  trace : list event;
}.
Arguments mkResult {A} outcome world trace.
Arguments outcome {A} r.
Arguments world {A} r.
Arguments trace {A} r.

Definition M (A : Type) : Type := Env -> World -> Result A.

(** The result [r] of a continuation, after the effects [t]. *)
Definition prepend {A} (t : list event) (r : Result A) : Result A :=
  match r with
  | mkResult o w t' => mkResult o w (t ++ t')
  end.

#[global] Instance M_ret : MRet M := fun A a _ w => mkResult (Normal a) w [].

#[global] Instance M_bind : MBind M := fun A B f m env w =>
  match m env w with
  | mkResult (Normal a) w1 t1 => prepend t1 (f a env w1)
  | mkResult Returned w1 t1 => mkResult Returned w1 t1
  | mkResult (Thrown e) w1 t1 => mkResult (Thrown e) w1 t1
  end.

(** [throw e] *)
Definition throw {A} (e : exn) : M A := fun _ w => mkResult (Thrown e) w [].

(** [return;] *)
Definition return_ {A} : M A := fun _ w => mkResult Returned w [].

(** [try { block } catch (x) { handler x }] *)
Definition try_catch {A} (block : M A) (handler : exn -> M A) : M A :=
  fun env w =>
    match block env w with
    | mkResult (Thrown e) w1 t1 => prepend t1 (handler e env w1)
    | mkResult (Normal a) w1 t1 => mkResult (Normal a) w1 t1
    | mkResult Returned w1 t1 => mkResult Returned w1 t1
    end.

(** [try { block } finally { finalizer }]: the finalizer runs on every
    completion of the block; an abrupt completion of the finalizer
    replaces that of the block. *)
Definition try_finally {A} (block : M A) (finalizer : M unit) : M A :=
  fun env w =>
    match block env w with
    | mkResult o w1 t1 =>
        match finalizer env w1 with
        | mkResult (Normal _) w2 t2 => mkResult o w2 (t1 ++ t2)
        | mkResult Returned w2 t2 => mkResult Returned w2 (t1 ++ t2)
        | mkResult (Thrown e) w2 t2 => mkResult (Thrown e) w2 (t1 ++ t2)
        end
    end.

(** The body of an [async (): Promise<void> => { ... }]: [return] ends
    the call normally, a throw rejects the promise. *)
Definition async_function (body : M unit) : M unit :=
  fun env w =>
    match body env w with
    | mkResult (Normal _) w1 t1 => mkResult (Normal tt) w1 t1
    | mkResult Returned w1 t1 => mkResult (Normal tt) w1 t1
    | mkResult (Thrown e) w1 t1 => mkResult (Thrown e) w1 t1
    end.

Definition emit (e : event) : M unit := fun _ w => mkResult (Normal tt) w [e].

(** A state setter: the update is followed by a re-render. *)
Definition setState (f : World -> World) : M unit := fun _ w =>
  mkResult (Normal tt) (f w) [EvRender (visible (f w))].

Definition setUsername (v : string) : M unit := setState (with_username v).
Definition setPassword (v : string) : M unit := setState (with_password v).
Definition setIsLoading (v : bool) : M unit := setState (with_isLoading v).
Definition setShowPassword (v : bool) : M unit := setState (with_showPassword v).
Definition setIsCheckingAuth (v : bool) : M unit :=
  setState (with_isCheckingAuth v).

(** *** AsyncStorage

    A string-keyed, string-valued store.  An operation on which the device
    fails rejects and leaves the store as it was; [multiSet] rejects a value
    that is not a string. *)

Definition stored_value (store : gmap string string) (key : string) : jsval :=
  match store !! key with
  | Some v => JStr v
  | None => JNull
  end.

Definition AsyncStorage_multiGet (keys : list string)
  : M (list (string * jsval)) := fun env w =>
  match storage_fault env (MultiGet keys) with
  | Some e => mkResult (Thrown e) w [EvStorage (MultiGet keys) (Some e)]
  | None =>
      mkResult (Normal (map (fun k => (k, stored_value (storage w) k)) keys))
        w [EvStorage (MultiGet keys) None]
  end.

Definition string_pair (kv : string * jsval) : option (string * string) :=
  match snd kv with
  | JStr v => Some (fst kv, v)
  | _ => None
  end.

Definition invalid_value : exn := Exn "Error" "[AsyncStorage] invalid value".

Definition write_all (pairs : list (string * string))
    (store : gmap string string) : gmap string string :=
  foldl (fun m kv => <[fst kv := snd kv]> m) store pairs.

Definition remove_all (keys : list string)
    (store : gmap string string) : gmap string string :=
  foldl (fun m k => delete k m) store keys.

Definition AsyncStorage_multiSet (keyValuePairs : list (string * jsval))
  : M unit := fun env w =>
  let op := MultiSet keyValuePairs in
  match mapM string_pair keyValuePairs with
  | None => mkResult (Thrown invalid_value) w [EvStorage op (Some invalid_value)]
  | Some pairs =>
      match storage_fault env op with
      | Some e => mkResult (Thrown e) w [EvStorage op (Some e)]
      | None =>
          mkResult (Normal tt)
            (with_storage (write_all pairs (storage w)) w)
            [EvStorage op None]
      end
  end.

Definition AsyncStorage_multiRemove (keys : list string) : M unit :=
  fun env w =>
  let op := MultiRemove keys in
  match storage_fault env op with
  | Some e => mkResult (Thrown e) w [EvStorage op (Some e)]
  | None =>
      mkResult (Normal tt)
        (with_storage (remove_all keys (storage w)) w)
        [EvStorage op None]
  end.

(** *** fetch, Alert, router, console *)

Definition fetch (req : Request) : M Response := fun env w =>
  match fetch_reply env req with
  | FetchRejects e => mkResult (Thrown e) w [EvFetch req (FetchRejects e)]
  | FetchResolves r => mkResult (Normal r) w [EvFetch req (FetchResolves r)]
  end.

Definition response_json (r : Response) : M jsval :=
  match json r with
  | JsonRejects e => throw e
  | JsonResolves data => mret data
  end.

(** [Alert.alert(title, message, buttons)]; [buttons] is [[]] when the
    call passes none. *)
Definition Alert_alert (title : string) (message : jsval)
    (buttons : list AlertButton) : M unit :=
  emit (EvAlert title message buttons).

Definition console_error (label : string) (e : exn) : M unit :=
  emit (EvConsoleError label e).

(** [router.replace(href)] and [router.push(href)].  The router is not
    part of the source: it records the call and the route it was given;
    what it then displays, and when, is not modelled. *)
Definition router_replace (href : string) : M unit := fun _ w =>
  mkResult (Normal tt) (with_route href w) [EvReplace href].

Definition router_push (href : string) : M unit := fun _ w =>
  mkResult (Normal tt) (with_route href w) [EvPush href].

(** The user presses a button of an alert: its callback runs. *)
Definition press (b : AlertButton) : M unit :=
  match onPress b with
  | ReplaceRoute href => router_replace href
  end.

(** *** Property access and template literals *)

(** [v.key] for the keys the program reads ([access_token], [token_type],
    [user], [username], [error]): none of them is a property of a
    prototype, so only an own property of an object can answer; reading
    from [null] or [undefined] throws. *)
Definition Get (v : jsval) (key : string) : M jsval :=
  match v with
  | JUndefined | JNull =>
      throw (TypeError "Cannot read properties of null or undefined")
  | JObj props => mret (default JUndefined (own_property props key))
  | _ => mret JUndefined
  end.

(** [authData[i][1]] *)
Definition entry_value (authData : list (string * jsval)) (i : nat)
  : M jsval :=
  match nth_error authData i with
  | Some kv => mret (snd kv)
  | None => throw (TypeError "Cannot read properties of undefined")
  end.

(** [${v}] inside a template literal. *)
Definition interpolate (v : jsval) : M string :=
  match ToString v with
  | Some s => mret s
  | None => throw (TypeError "Cannot convert object to primitive value")
  end.

(** ** The component's functions (src/app/login.tsx) *)

Definition verify_url : string := "http://192.168.1.20:5000/auth/verify-token".
Definition login_url : string := "http://192.168.1.20:5000/auth/login".
Definition session_keys : list string :=
  ["access_token"; "token_type"; "user_data"].

(** The request of [checkExistingAuth]. *)
Definition verify_request (tokenType accessToken : string) : Request :=
  {| url := verify_url;
     method := "GET";
     headers := [("Authorization", tokenType +:+ " " +:+ accessToken);
                 ("Content-Type", "application/json")];
     body := None |}.

(** The request of [handleLogin]. *)
Definition login_request (username password : string) : Request :=
  {| url := login_url;
     method := "POST";
     headers := [("Content-Type", "application/json")];
     body := serialize (JObj [("username", JStr (JSString.trim username));
                              ("password", JStr password)]) |}.

Definition checkExistingAuth : M unit :=
  async_function (
    try_finally
      (try_catch
         (setIsCheckingAuth true;;
          authData ← AsyncStorage_multiGet
                       ["access_token"; "token_type"; "user_data"];
          accessToken ← entry_value authData 0;
          tokenType ← entry_value authData 1;
          userData ← entry_value authData 2;
          if ToBoolean accessToken && ToBoolean tokenType
             && ToBoolean userData then
            try_catch
              (tokenTypeStr ← interpolate tokenType;
               accessTokenStr ← interpolate accessToken;
               response ← fetch (verify_request tokenTypeStr accessTokenStr);
               if response_ok response then
                 router_replace "/(tabs)";;
                 return_
               else
                 AsyncStorage_multiRemove
                   ["access_token"; "token_type"; "user_data"])
              (fun verifyError =>
                 router_replace "/(tabs)";;
                 return_)
          else mret tt)
         (fun error =>
            console_error "Error checking existing auth:" error))
      (setIsCheckingAuth false)).

Definition handleForgotPassword : M unit := router_push "/forgot-password".

Definition handleSignUp : M unit := router_push "/signup".

Definition togglePasswordVisibility : M unit := fun env w =>
  setShowPassword (negb (showPassword w)) env w.

(** [username] and [password] are those of the render in which the
    handler was created: the state [w0] at the press. *)
Definition handleLogin : M unit := fun env w0 =>
  async_function (
    if negb (JSString.truthy (username w0))
       || negb (JSString.truthy (password w0)) then
      Alert_alert "Error" (JStr "Please enter both username and password") [];;
      return_
    else
      setIsLoading true;;
      try_finally
        (try_catch
           (response ← fetch (login_request (username w0) (password w0));
            data ← response_json response;
            if response_ok response then
              access_token ← Get data "access_token";
              token_type ← Get data "token_type";
              user ← Get data "user";
              try_catch
                (AsyncStorage_multiSet
                   [("access_token", access_token);
                    ("token_type", token_type);
                    ("user_data", JSON_stringify user)];;
                 name ← Get user "username";
                 shown ← interpolate name;
                 Alert_alert "Success"
                   (JStr ("Welcome back, " +:+ shown +:+ "!"))
                   [{| text := "OK"; onPress := ReplaceRoute "/(tabs)" |}])
                (fun storageError =>
                   console_error "Error storing authentication data:"
                     storageError;;
                   Alert_alert "Warning"
                     (JStr "Login successful but failed to store session data")
                     [])
            else
              error ← Get data "error";
              let errorMessage :=
                if ToBoolean error then error
                else JStr "Login failed. Please try again." in
              Alert_alert "Error" errorMessage [];;
              setPassword "")
           (fun error =>
              console_error "Login error:" error;;
              Alert_alert "Error"
                (JStr "Network error. Please check your connection and try again.")
                []))
        (setIsLoading false)
  ) env w0.
(** ** Observations on a trace *)

(** The requests sent over the network. *)
Definition network_calls (tr : list event) : list Request :=
  flat_map (fun ev => match ev with
                      | EvFetch req _ => [req]
                      | _ => []
                      end) tr.

(** How the requests sent to [endpoint] ended. *)
Definition fetched (endpoint : string) (tr : list event) : list fetch_result :=
  flat_map (fun ev => match ev with
                      | EvFetch req res =>
                          if String.eqb (url req) endpoint then [res] else []
                      | _ => []
                      end) tr.

(** The storage operations performed, each with its failure if any. *)
Definition storage_ops (tr : list event) : list (StorageOp * option exn) :=
  flat_map (fun ev => match ev with
                      | EvStorage op fault => [(op, fault)]
                      | _ => []
                      end) tr.

(** The alerts shown to the user. *)
Definition alerts (tr : list event)
  : list (string * jsval * list AlertButton) :=
  flat_map (fun ev => match ev with
                      | EvAlert title message buttons =>
                          [(title, message, buttons)]
                      | _ => []
                      end) tr.

(** The targets of [router.replace]. *)
Definition redirects (tr : list event) : list string :=
  flat_map (fun ev => match ev with
                      | EvReplace href => [href]
                      | _ => []
                      end) tr.

(** What the component rendered, one entry per re-render. *)
Definition screens (tr : list event) : list Screen :=
  flat_map (fun ev => match ev with
                      | EvRender s => [s]
                      | _ => []
                      end) tr.

(** The [error] field of a response body, as [data.error] reads it from a
    value that is neither [null] nor [undefined]. *)
Definition error_field (data : jsval) : jsval :=
  match data with
  | JObj props => default JUndefined (own_property props "error")
  | _ => JUndefined
  end.

(** [data.error || 'Login failed. Please try again.'] *)
Definition displayed_error (data : jsval) : jsval :=
  if ToBoolean (error_field data) then error_field data
  else JStr "Login failed. Please try again.".

(** A storage call that concerns exactly the three session keys. *)
Definition on_session_triple (call : StorageOp * option exn) : Prop :=
  match fst call with
  | MultiGet keys => keys = session_keys
  | MultiSet keyValuePairs => map fst keyValuePairs = session_keys
  | MultiRemove keys => keys = session_keys
  end.

(** A server that answers every request with a 2xx status. *)
Definition always_2xx (env : Env) : Prop :=
  forall req, exists resp,
    fetch_reply env req = FetchResolves resp /\ response_ok resp = true.

(** ** The session triple in storage *)

Definition all_present (store : gmap string string) : Prop :=
  is_Some (store !! "access_token") /\ is_Some (store !! "token_type")
  /\ is_Some (store !! "user_data").

Definition all_absent (store : gmap string string) : Prop :=
  store !! "access_token" = None /\ store !! "token_type" = None
  /\ store !! "user_data" = None.

Definition all_or_none (store : gmap string string) : Prop :=
  all_present store \/ all_absent store.

(** Everything the user or the framework can make the component do. *)
Inductive operation : Type :=
| OnMount
| OnChangeUsername (v : string)
| OnChangePassword (v : string)
| PressLogin
| PressForgotPassword
| PressSignUp
| PressEye
| PressAlertButton (b : AlertButton).

Definition perform (op : operation) : M unit :=
  match op with
  | OnMount => checkExistingAuth
  | OnChangeUsername v => setUsername v
  | OnChangePassword v => setPassword v
  | PressLogin => handleLogin
  | PressForgotPassword => handleForgotPassword
  | PressSignUp => handleSignUp
  | PressEye => togglePasswordVisibility
  | PressAlertButton b => press b
  end.

End Heartify.

Arguments mkResult {number A} outcome world trace.
Arguments outcome {number A} r.
Arguments world {number A} r.
Arguments trace {number A} r.

(** ** Named worlds and stores used in the statements *)

(** The world after [checkExistingAuth] has redirected from [w]. *)
Definition redirected (w : World) : World :=
  with_isCheckingAuth false
    (with_route "/(tabs)" (with_isCheckingAuth true w)).

(** The store after the three session keys have been written. *)
Definition session_written (access_token token_type user_data : string)
    (store : gmap string string) : gmap string string :=
  <["user_data" := user_data]>
    (<["token_type" := token_type]>
       (<["access_token" := access_token]> store)).

(** The store after the three session keys have been removed. *)
Definition session_removed (store : gmap string string)
  : gmap string string :=
  delete "user_data" (delete "token_type" (delete "access_token" store)).

(** The JSON text of the user record whose only field is the username
    alice, quote by quote. *)
Definition alice_json : string :=
  "{" +:+ JSString.dquote +:+ "username" +:+ JSString.dquote +:+ ":"
  +:+ JSString.dquote +:+ "alice" +:+ JSString.dquote +:+ "}".

(** The button of the success alert. *)
Definition ok_button : AlertButton :=
  {| text := "OK"; onPress := ReplaceRoute "/(tabs)" |}.

(** Concrete servers, devices and screens. *)
Module Sample.

Definition network_down : exn := Exn "TypeError" "Network request failed".
Definition disk_full : exn := Exn "Error" "database or disk is full".
Definition not_json : exn := Exn "SyntaxError" "JSON Parse error".

(** No server can be reached; the storage works. *)
Definition offline : Env (number := safe_integer) :=
  {| fetch_reply := fun _ => FetchRejects network_down;
     storage_fault := fun _ => None |}.

(** The server answers with [code] and the JSON value [data]; the
    storage works. *)
Definition server (code : Z) (data : jsval (number := safe_integer)) : Env :=
  {| fetch_reply := fun _ =>
       FetchResolves {| status := code; json := JsonResolves data |};
     storage_fault := fun _ => None |}.

(** The server answers with [code] and a body that is not JSON. *)
Definition server_html (code : Z) : Env (number := safe_integer) :=
  {| fetch_reply := fun _ =>
       FetchResolves {| status := code; json := JsonRejects not_json |};
     storage_fault := fun _ => None |}.

(** As [server], on a device whose storage fails to write and remove. *)
Definition server_readonly (code : Z) (data : jsval (number := safe_integer)) : Env :=
  {| fetch_reply := fun _ =>
       FetchResolves {| status := code; json := JsonResolves data |};
     storage_fault := fun op =>
       match op with
       | MultiGet _ => None
       | MultiSet _ | MultiRemove _ => Some disk_full
       end |}.

Definition login_props : list (string * jsval (number := safe_integer)) :=
  [("access_token", JStr "t1"); ("token_type", JStr "Bearer");
   ("user", JObj [("username", JStr "alice")])].

Definition login_body : jsval (number := safe_integer) := JObj login_props.

(** A stored session. *)
Definition stored : gmap string string :=
  session_written "t1" "Bearer" alice_json ∅.

(** The login form with the two inputs typed in. *)
Definition form (username password : string)
    (store : gmap string string) : World :=
  with_password password
    (with_username username (with_isCheckingAuth false (mount store))).

End Sample.

(** ** Sessions of operations *)

(** A key that [checkExistingAuth] treats as missing: not stored, or stored
    with the empty string (both are falsy at the test of line 54). *)
Definition unusable (store : gmap string string) (key : string) : Prop :=
  store !! key = None \/ store !! key = Some "".

(** The world after a sequence of operations, each in the environment it
    meets. *)
Fixpoint perform_all {number : Type} `{JSNumber number}
    (steps : list (Env (number := number) * operation)) (w : World) : World :=
  match steps with
  | [] => w
  | step :: steps' => perform_all steps' (world (perform (snd step) (fst step) w))
  end.

(** More concrete servers and devices. *)
Module Sample2.

(** The storage fails to read; no server can be reached. *)
Definition unreadable : Env (number := safe_integer) :=
  {| fetch_reply := fun _ => FetchRejects Sample.network_down;
     storage_fault := fun op =>
       match op with
       | MultiGet _ => Some Sample.disk_full
       | MultiSet _ | MultiRemove _ => None
       end |}.

(** A store that lacks the token type. *)
Definition partial_store : gmap string string :=
  <["user_data" := alice_json]> (<["access_token" := "t1"]> ∅).

(** An accepted login whose [user] is [null]. *)
Definition null_user_props : list (string * jsval (number := safe_integer)) :=
  [("access_token", JStr "t1"); ("token_type", JStr "Bearer");
   ("user", JNull)].

(** A login, then a restart of the screen against a server that rejects
    the session. *)
Definition login_then_rejected : list (Env (number := safe_integer) * operation) :=
  [(Sample.server 200 Sample.login_body, PressLogin);
   (Sample.server 200 Sample.login_body, PressAlertButton ok_button);
   (Sample.server 401 JNull, OnMount)].

End Sample2.

(** * Properties *)

Section Properties.

Context {number : Type} `{JSNumber number}.

Implicit Types (env : Env (number := number)) (w : World).
Implicit Types (resp : Response (number := number)).
Implicit Types (data : jsval (number := number)).

(** ** Symbolic execution *)

Ltac run_unfold :=
  cbv [handleLogin checkExistingAuth handleForgotPassword handleSignUp
       togglePasswordVisibility async_function try_finally try_catch
       mbind M_bind mret M_ret throw return_ emit setState prepend
       setUsername setPassword setIsLoading setShowPassword setIsCheckingAuth
       Alert_alert console_error router_replace router_push press fetch
       response_json AsyncStorage_multiGet AsyncStorage_multiSet
       AsyncStorage_multiRemove Get entry_value interpolate
       stored_value map nth_error snd fst ok_button onPress].

(** Case analysis on a scrutinee that is not itself a case analysis: the
    next point at which the run waits for the environment or for data. *)
Ltac step :=
  match goal with
  | |- context [match ?x with _ => _ end] =>
      lazymatch x with
      | context [match _ with _ => _ end] => fail
      | _ => destruct x eqn:?
      end
  end;
  cbn [ToBoolean ToString JSString.truthy]; cbv beta iota.

(** Evaluate the observations made on an explicit result. *)
Ltac observe :=
  cbn [outcome world trace fetched network_calls storage_ops alerts
       redirects screens flat_map app url verify_request login_request
       verify_url login_url String.eqb Ascii.eqb Bool.eqb
       storage username password isLoading route isCheckingAuth showPassword
       with_isCheckingAuth with_isLoading with_password with_storage
       with_route with_username with_showPassword] in *.

(** Two equations on the same term: keep one, and what it says of the
    right-hand sides. *)
Ltac merge_equations :=
  repeat match goal with
         | H1 : ?x = ?a, H2 : ?x = ?b |- _ =>
             first [ constr_eq a b; clear H2
                   | rewrite H1 in H2; simplify_eq ]
         end.

(** Name the result of a run, split it along every branch the run can
    take, and substitute the result of each branch. *)
Ltac run_cases r :=
  let Hr := fresh "Hr" in
  let result := fresh "result" in
  remember r as result eqn:Hr in *; revert Hr; run_unfold;
  cbn [ToBoolean ToString JSString.truthy storage with_isCheckingAuth
       with_isLoading with_password]; cbv beta iota;
  repeat step; intros ->; observe.

(** Follow the one path that the equations at hand select. *)
Ltac run_path :=
  run_unfold;
  repeat (progress
            (repeat match goal with
                    | H : ?x = _ |- context [match ?x with _ => _ end] =>
                        rewrite H
                    end;
             cbv beta iota;
             cbn [ToBoolean ToString JSString.truthy default from_option id
                  storage with_isLoading with_storage with_password])).

(** ** Auxiliary facts *)

Lemma truthy_nonempty (s : string) : s <> "" -> JSString.truthy s = true.
Proof. destruct s; [congruence | reflexivity]. Qed.

Lemma validation_passes w :
  username w <> "" -> password w <> "" ->
  negb (JSString.truthy (username w)) || negb (JSString.truthy (password w))
  = false.
Proof.
  intros Hu Hp. now rewrite (truthy_nonempty _ Hu), (truthy_nonempty _ Hp).
Qed.

Lemma validation_fails w :
  username w = "" \/ password w = "" ->
  negb (JSString.truthy (username w)) || negb (JSString.truthy (password w))
  = true.
Proof.
  intros [-> | ->]; [reflexivity | apply orb_true_r].
Qed.

Lemma validation_inv w :
  negb (JSString.truthy (username w)) || negb (JSString.truthy (password w))
  = false ->
  username w <> "" /\ password w <> "".
Proof.
  destruct (username w), (password w); cbn; intros Hg; try discriminate.
  split; discriminate.
Qed.

Lemma loading_is_not_the_form w :
  visible (with_isCheckingAuth true w) <> LoginForm.
Proof.
  unfold visible. cbn. discriminate.
Qed.

Lemma string_pairs_session (v1 v2 v3 : jsval (number := number)) l :
  mapM string_pair
    [("access_token", v1); ("token_type", v2); ("user_data", v3)] = Some l ->
  exists a b c,
    v1 = JStr a /\ v2 = JStr b /\ v3 = JStr c
    /\ l = [("access_token", a); ("token_type", b); ("user_data", c)].
Proof.
  destruct v1, v2, v3; cbn; intros Hl; try discriminate.
  injection Hl as <-. eauto 8.
Qed.

Lemma string_pairs_strings (k1 k2 k3 a b c : string) :
  mapM (string_pair (number := number))
    [(k1, JStr a); (k2, JStr b); (k3, JStr c)]
  = Some [(k1, a); (k2, b); (k3, c)].
Proof. reflexivity. Qed.

Lemma stringify_alice :
  JSON_stringify (number := number) (JObj [("username", JStr "alice")])
  = JStr alice_json.
Proof. reflexivity. Qed.

Lemma session_written_all_present a b c store :
  all_present (session_written a b c store).
Proof.
  unfold all_present, session_written. by simplify_map_eq.
Qed.

Lemma session_removed_all_absent store :
  all_absent (session_removed store).
Proof.
  unfold all_absent, session_removed. by simplify_map_eq.
Qed.

(** The submission with an empty input, in full. *)
Lemma handleLogin_empty_input env w :
  username w = "" \/ password w = "" ->
  handleLogin env w =
    mkResult (Normal tt) w
      [EvAlert "Error" (JStr "Please enter both username and password") []].
Proof.
  intros Hempty. unfold handleLogin.
  rewrite (validation_fails w Hempty). reflexivity.
Qed.

(** A login request that was answered was sent by a submission that
    passed the validation, and the answer is the server's. *)
Lemma login_response_inv env w res :
  fetched login_url (trace (handleLogin env w)) = [res] ->
  username w <> "" /\ password w <> ""
  /\ fetch_reply env (login_request (username w) (password w)) = res.
Proof.
  intros Hdone.
  run_cases (handleLogin env w).
  all: simplify_eq.
  all: match goal with
       | Hg : _ || _ = false |- _ => destruct (validation_inv w Hg) as [Hu Hp]
       end.
  all: repeat split; assumption.
Qed.

(** The redirect signal of the bootstrapper depends on the world only
    through the storage. *)
Lemma checkExistingAuth_redirects_storage env w w' :
  storage w = storage w' ->
  redirects (trace (checkExistingAuth env w))
  = redirects (trace (checkExistingAuth env w')).
Proof.
  intros Hs.
  run_unfold.
  cbn [ToBoolean ToString JSString.truthy storage with_isCheckingAuth].
  rewrite Hs. cbv beta iota.
  repeat step; reflexivity.
Qed.

(** Against a server that always answers 2xx the bootstrapper never
    touches the store. *)
Lemma checkExistingAuth_2xx_storage env w :
  always_2xx env ->
  storage (world (checkExistingAuth env w)) = storage w.
Proof.
  intros Hsrv.
  run_cases (checkExistingAuth env w); try reflexivity.
  all: match goal with
       | Hf : fetch_reply _ ?req = _ |- _ =>
           destruct (Hsrv req) as (resp' & Hresp & Hok'); congruence
       end.
Qed.

(** ** Login submission: validation *)

(** C1, as amended.  A submission in which the username or the password is
    the empty string is rejected locally: the handler reports the error
    "Please enter both username and password" and returns, having sent
    nothing over the network, touched no storage and changed no state. *)
Theorem handleLogin_rejects_empty_input env w :
  username w = "" \/ password w = "" ->
  let r := handleLogin env w in
  outcome r = Normal tt
  /\ alerts (trace r)
     = [("Error", JStr "Please enter both username and password", [])]
  /\ network_calls (trace r) = []
  /\ storage_ops (trace r) = []
  /\ world r = w.
Proof.
  intros Hempty r. subst r.
  rewrite (handleLogin_empty_input env w Hempty).
  repeat split.
Qed.

(** ** Session bootstrap *)

(** C2.  When the three session keys are stored and the verify-token
    request throws, the bootstrapper signals the redirect to the
    authenticated area and ends in the same world as after a successful
    verification ([redirected]), having rendered the same screens; the
    store is only read. *)
Theorem checkExistingAuth_verify_throws_redirects env w a t u e :
  storage w !! "access_token" = Some a ->
  storage w !! "token_type" = Some t ->
  storage w !! "user_data" = Some u ->
  fetched verify_url (trace (checkExistingAuth env w)) = [FetchRejects e] ->
  let r := checkExistingAuth env w in
  redirects (trace r) = ["/(tabs)"]
  /\ screens (trace r) = [LoadingScreen; LoginForm]
  /\ world r = redirected w
  /\ storage (world r) = storage w
  /\ storage_ops (trace r) = [(MultiGet session_keys, None)].
Proof.
  intros Ha Ht Hu Hthrown r. subst r.
  run_cases (checkExistingAuth env w).
  all: rewrite ?Ha, ?Ht, ?Hu in *.
  all: simplify_eq.
  all: repeat split.
Qed.


(** The rejected session when the storage works (the part of C6 that the
    code keeps).  When the three session keys are stored with non-empty
    values and the verify-token request completes with a status that is
    not 2xx, the bootstrapper asks the storage to remove exactly the three
    keys; when that removal does not fail, the three keys are gone, no
    redirect is signalled and the login form is rendered. *)
Theorem checkExistingAuth_invalid_session_cleared env w a t u resp :
  storage w !! "access_token" = Some a -> a <> "" ->
  storage w !! "token_type" = Some t -> t <> "" ->
  storage w !! "user_data" = Some u -> u <> "" ->
  fetched verify_url (trace (checkExistingAuth env w)) = [FetchResolves resp] ->
  response_ok resp = false ->
  let r := checkExistingAuth env w in
  storage_ops (trace r)
  = [(MultiGet session_keys, None);
     (MultiRemove session_keys, storage_fault env (MultiRemove session_keys))]
  /\ (storage_fault env (MultiRemove session_keys) = None ->
      storage (world r) = session_removed (storage w)
      /\ all_absent (storage (world r))
      /\ redirects (trace r) = []
      /\ visible (world r) = LoginForm).
Proof.
  intros Ha Ha' Ht Ht' Hu Hu' Hdone Hok r. subst r.
  run_cases (checkExistingAuth env w).
  all: rewrite ?Ha, ?Ht, ?Hu in *.
  all: simplify_eq.
  all: try congruence.
  all: unfold session_keys.
  all: match goal with
       | Hf : storage_fault _ (MultiRemove _) = _ |- _ => rewrite Hf
       end.
  all: split; [reflexivity | intros Hfault; try discriminate].
  split; [reflexivity |]. split; [| split; reflexivity].
  apply session_removed_all_absent.
Qed.

(** C9.  Against a verify endpoint that always answers 2xx, two runs of the
    bootstrapper in succession signal the same redirects; neither run
    changes the store; and when a session with non-empty values is stored
    and can be read, both runs signal the redirect to the authenticated
    area. *)
Theorem checkExistingAuth_twice_same_redirect env w :
  always_2xx env ->
  let r1 := checkExistingAuth env w in
  let r2 := checkExistingAuth env (world r1) in
  redirects (trace r1) = redirects (trace r2)
  /\ storage (world r1) = storage w
  /\ storage (world r2) = storage w
  /\ (forall a t u,
        storage w !! "access_token" = Some a -> a <> "" ->
        storage w !! "token_type" = Some t -> t <> "" ->
        storage w !! "user_data" = Some u -> u <> "" ->
        storage_fault env (MultiGet session_keys) = None ->
        redirects (trace r1) = ["/(tabs)"]
        /\ redirects (trace r2) = ["/(tabs)"]).
Proof.
  intros Hsrv r1 r2.
  assert (storage (world r1) = storage w) as Hs1
    by apply (checkExistingAuth_2xx_storage env w Hsrv).
  assert (redirects (trace r1) = redirects (trace r2)) as Hsame.
  { symmetry. apply checkExistingAuth_redirects_storage. exact Hs1. }
  split; [exact Hsame |]. split; [exact Hs1 |]. split.
  { subst r2. rewrite (checkExistingAuth_2xx_storage env _ Hsrv). exact Hs1. }
  intros a t u Ha Ha' Ht Ht' Hu Hu' Hread.
  rewrite <- Hsame. clear Hsame Hs1 r2. subst r1.
  destruct (Hsrv (verify_request t a)) as (resp & Hresp & Hok).
  unfold session_keys in Hread.
  run_cases (checkExistingAuth env w).
  all: rewrite ?Ha, ?Ht, ?Hu in *.
  all: simplify_eq.
  all: try (split; reflexivity).
  all: try congruence.
  all: rewrite (truthy_nonempty _ Ha'), (truthy_nonempty _ Ht'),
         (truthy_nonempty _ Hu') in *; discriminate.
Qed.

(** ** Login submission: the answers of the server *)

(** C3.  When the login request is answered with a 2xx status and a body
    whose [access_token] is "t1", whose [token_type] is "Bearer" and whose
    [user] is the object with the single field [username] = "alice", and
    the storage accepts the write, then the three keys hold "t1", "Bearer"
    and the JSON text of the user; the alert "Welcome back, alice!" is
    shown with one button; no redirect is signalled before that button is
    pressed, and pressing it signals the redirect to the authenticated
    area. *)
Theorem handleLogin_success_stores_session env w resp props :
  fetched login_url (trace (handleLogin env w)) = [FetchResolves resp] ->
  response_ok resp = true ->
  json resp = JsonResolves (JObj props) ->
  own_property props "access_token" = Some (JStr "t1") ->
  own_property props "token_type" = Some (JStr "Bearer") ->
  own_property props "user" = Some (JObj [("username", JStr "alice")]) ->
  storage_fault env
    (MultiSet [("access_token", JStr "t1"); ("token_type", JStr "Bearer");
               ("user_data", JStr alice_json)]) = None ->
  let r := handleLogin env w in
  storage (world r) !! "access_token" = Some "t1"
  /\ storage (world r) !! "token_type" = Some "Bearer"
  /\ storage (world r) !! "user_data" = Some alice_json
  /\ alerts (trace r) = [("Success", JStr "Welcome back, alice!", [ok_button])]
  /\ redirects (trace r) = []
  /\ redirects (trace (press ok_button env (world r))) = ["/(tabs)"].
Proof.
  intros Hdone Hok Hjson Hat Htt Huser Hwrite r.
  destruct (login_response_inv _ _ _ Hdone) as (Hu & Hp & Hfetch).
  pose proof (validation_passes w Hu Hp) as Hvalid.
  assert (world r = with_isLoading false
                      (with_storage
                         (session_written "t1" "Bearer" alice_json (storage w))
                         (with_isLoading true w))
          /\ alerts (trace r)
             = [("Success", JStr "Welcome back, alice!", [ok_button])]
          /\ redirects (trace r) = []) as (Hworld & Halerts & Hnav).
  { subst r. clear Hdone. run_path.
    rewrite Hat, Htt, Huser. cbn [default from_option id].
    rewrite stringify_alice, string_pairs_strings, Hwrite.
    cbv beta iota. cbn.
    repeat split. }
  rewrite Hworld. cbn [storage with_isLoading with_storage].
  unfold session_written.
  repeat split; try assumption; by simplify_map_eq.
Qed.

(** C4, as amended.  When the login request is answered with a status that
    is not 2xx and a body that parses to a JSON value other than [null],
    the error shown is the [error] field of the body when that field is
    present and truthy (a non-empty string, for one) and the generic
    message "Login failed. Please try again." otherwise; the password
    field is cleared, the username field is unchanged, and the storage is
    neither called nor changed. *)
Theorem handleLogin_failure_shows_error env w resp data :
  fetched login_url (trace (handleLogin env w)) = [FetchResolves resp] ->
  response_ok resp = false ->
  json resp = JsonResolves data ->
  data <> JNull -> data <> JUndefined ->
  let r := handleLogin env w in
  alerts (trace r) = [("Error", displayed_error data, [])]
  /\ password (world r) = ""
  /\ username (world r) = username w
  /\ storage (world r) = storage w
  /\ storage_ops (trace r) = [].
Proof.
  intros Hdone Hok Hjson Hnull Hundef r. subst r.
  run_cases (handleLogin env w).
  all: simplify_eq.
  all: merge_equations.
  all: try congruence.
  all: unfold displayed_error, error_field.
  all: repeat match goal with
              | Hb : ?x = _ |- context [if ?x then _ else _] => rewrite Hb
              end.
  all: cbn [ToBoolean].
  all: repeat split.
Qed.

(** C7.  A submission that starts while the form is not busy, or that
    passes the validation, completes normally with the busy flag false,
    whatever the server and the storage do. *)
Theorem handleLogin_clears_busy env w :
  isLoading w = false \/ (username w <> "" /\ password w <> "") ->
  let r := handleLogin env w in
  outcome r = Normal tt /\ isLoading (world r) = false.
Proof.
  intros Hidle r. subst r.
  run_cases (handleLogin env w).
  all: split; try reflexivity.
  destruct Hidle as [Hidle | [Hu Hp]]; [exact Hidle |].
  rewrite (validation_passes w Hu Hp) in *. discriminate.
Qed.

(** C10.  When the login request is answered with a 2xx status and the
    multi-key write of the session throws, the only alert is the warning
    "Login successful but failed to store session data", which has no
    button that could redirect; no redirect is signalled, the route stays
    that of the login screen and the store is unchanged. *)
Theorem handleLogin_storage_failure_no_redirect env w resp keyValuePairs e :
  fetched login_url (trace (handleLogin env w)) = [FetchResolves resp] ->
  response_ok resp = true ->
  storage_ops (trace (handleLogin env w))
  = [(MultiSet keyValuePairs, Some e)] ->
  let r := handleLogin env w in
  alerts (trace r)
  = [("Warning", JStr "Login successful but failed to store session data", [])]
  /\ redirects (trace r) = []
  /\ route (world r) = route w
  /\ storage (world r) = storage w.
Proof.
  intros Hdone Hok Hthrown r. subst r.
  run_cases (handleLogin env w).
  all: simplify_eq.
  all: repeat split.
Qed.

(** ** The session triple *)

(** C8.  Whatever the component is made to do, every storage call it
    issues concerns exactly the three session keys; the store it leaves is
    the initial one, or the initial one with the three keys written, or
    the initial one with the three keys removed; hence a store in which
    the three keys are all present or all absent stays so. *)
Theorem storage_mutations_keep_session_whole (op : operation) env w :
  let r := perform op env w in
  Forall on_session_triple (storage_ops (trace r))
  /\ (storage (world r) = storage w
      \/ (exists a b c, storage (world r) = session_written a b c (storage w))
      \/ storage (world r) = session_removed (storage w))
  /\ (all_or_none (storage w) -> all_or_none (storage (world r))).
Proof.
  intros r.
  assert (Forall on_session_triple (storage_ops (trace r))
          /\ (storage (world r) = storage w
              \/ (exists a b c,
                     storage (world r) = session_written a b c (storage w))
              \/ storage (world r) = session_removed (storage w)))
    as [Hops Hstep].
  { subst r. destruct op; unfold perform.
    - run_cases (checkExistingAuth env w).
      all: split; [repeat constructor | auto].
    - cbn. auto.
    - cbn. auto.
    - run_cases (handleLogin env w).
      all: try (split; [repeat constructor | auto]; fail).
      all: match goal with
           | Hl : mapM string_pair _ = Some _ |- _ =>
               apply string_pairs_session in Hl;
               destruct Hl as (? & ? & ? & _ & _ & _ & ->)
           end.
      all: split;
        [repeat constructor | right; left; do 3 eexists; reflexivity].
    - cbn. auto.
    - cbn. auto.
    - cbn. auto.
    - destruct b as [txt [href]]. cbn. auto. }
  split; [exact Hops |]. split; [exact Hstep |].
  intros Hinv. destruct Hstep as [-> | [(a & b & c & ->) | ->]].
  - exact Hinv.
  - left. apply session_written_all_present.
  - right. apply session_removed_all_absent.
Qed.

(** * Further properties of the two functions *)

(** ** Auxiliary facts *)

Lemma truthy_inv (s : string) : JSString.truthy s = true -> s <> "".
Proof. destruct s; [discriminate | discriminate]. Qed.

(** The three facts of the test [accessToken && tokenType && userData]. *)
Ltac split_truthy :=
  match goal with
  | Hall : _ && _ && _ = true |- _ =>
      let H12 := fresh "H12" in
      let Ha := fresh "Ha" in
      let Ht := fresh "Ht" in
      let Hu := fresh "Hu" in
      apply andb_prop in Hall as [H12 Hu];
      apply andb_prop in H12 as [Ha Ht];
      try discriminate Ha; try discriminate Ht; try discriminate Hu;
      apply truthy_inv in Ha; apply truthy_inv in Ht; apply truthy_inv in Hu
  end.

Lemma form_after_check w :
  visible (with_isCheckingAuth false w) = LoginForm.
Proof. reflexivity. Qed.

(** ** Session bootstrap *)

(** X1.  On every path through the bootstrapper, whether the storage and
    the request resolve or reject, the run ends without a rejection and
    with [isCheckingAuth] false: after a completed run the component no
    longer renders the loading screen. *)
Theorem checkExistingAuth_always_settles env w :
  let r := checkExistingAuth env w in
  outcome r = Normal tt
  /\ isCheckingAuth (world r) = false
  /\ visible (world r) <> LoadingScreen.
Proof.
  intros r. subst r.
  run_cases (checkExistingAuth env w).
  all: repeat split.
  all: unfold visible; cbn; discriminate.
Qed.

(** X2.  When one of the three keys is not stored, or is stored with the
    empty string, the bootstrapper sends nothing, signals no redirect,
    leaves the store as it is and shows the login form. *)
Theorem checkExistingAuth_incomplete_session_shows_form env w :
  unusable (storage w) "access_token"
  \/ unusable (storage w) "token_type"
  \/ unusable (storage w) "user_data" ->
  let r := checkExistingAuth env w in
  network_calls (trace r) = []
  /\ redirects (trace r) = []
  /\ storage (world r) = storage w
  /\ visible (world r) = LoginForm.
Proof.
  intros Hmissing r. subst r. unfold unusable in Hmissing.
  run_cases (checkExistingAuth env w).
  all: try (repeat split; fail).
  all: split_truthy.
  all: destruct Hmissing as [[Hk | Hk] | [[Hk | Hk] | [Hk | Hk]]]; congruence.
Qed.

(** X3.  When the storage fails to read the three keys, the bootstrapper
    logs the failure, sends nothing, signals no redirect and shows the
    login form. *)
Theorem checkExistingAuth_read_failure_shows_form env w e :
  storage_fault env (MultiGet session_keys) = Some e ->
  let r := checkExistingAuth env w in
  In (EvConsoleError "Error checking existing auth:" e) (trace r)
  /\ network_calls (trace r) = []
  /\ redirects (trace r) = []
  /\ storage (world r) = storage w
  /\ visible (world r) = LoginForm.
Proof.
  intros Hfault r. subst r. unfold session_keys in Hfault.
  run_cases (checkExistingAuth env w).
  all: simplify_eq.
  repeat split. cbn. auto.
Qed.

(** What the bootstrapper sends: nothing, or the one GET that carries the
    stored token type and access token. *)
Lemma checkExistingAuth_calls env w :
  let r := checkExistingAuth env w in
  (network_calls (trace r) = [] /\ redirects (trace r) = [])
  \/ (exists a t u,
        storage w !! "access_token" = Some a /\ a <> ""
        /\ storage w !! "token_type" = Some t /\ t <> ""
        /\ storage w !! "user_data" = Some u /\ u <> ""
        /\ network_calls (trace r) = [verify_request t a]).
Proof.
  intros r. subst r.
  run_cases (checkExistingAuth env w).
  all: try (left; split; reflexivity).
  all: split_truthy.
  all: right; do 3 eexists; repeat split; eassumption.
Qed.

(** X4.  The bootstrapper sends at most one request.  It sends one only
    when the three keys are stored with non-empty values, and that request
    is the GET to the verify URL whose Authorization header is the stored
    token type, a space and the stored access token; without such a
    request there is no redirect. *)
Theorem checkExistingAuth_sends_stored_credentials env w :
  let r := checkExistingAuth env w in
  (network_calls (trace r) = [] /\ redirects (trace r) = [])
  \/ (exists a t u,
        storage w !! "access_token" = Some a /\ a <> ""
        /\ storage w !! "token_type" = Some t /\ t <> ""
        /\ storage w !! "user_data" = Some u /\ u <> ""
        /\ network_calls (trace r)
           = [{| url := "http://192.168.1.20:5000/auth/verify-token";
                 method := "GET";
                 headers := [("Authorization", t +:+ " " +:+ a);
                             ("Content-Type", "application/json")];
                 body := None |}]).
Proof.
  exact (checkExistingAuth_calls env w).
Qed.

(** X5.  The bootstrapper never writes to the store.  It changes the store
    only by removing the three session keys, and only after the verify
    request was answered with a status that is not 2xx. *)
Theorem checkExistingAuth_removes_only_rejected_session env w :
  let r := checkExistingAuth env w in
  storage (world r) = storage w
  \/ (storage (world r) = session_removed (storage w)
      /\ exists resp,
           fetched verify_url (trace r) = [FetchResolves resp]
           /\ response_ok resp = false).
Proof.
  intros r. subst r.
  run_cases (checkExistingAuth env w).
  all: try (left; reflexivity).
  all: right; split; [reflexivity | eexists; split; [reflexivity | assumption]].
Qed.

(** ** Login submission: failures of the exchange *)

(** X6.  When the login request throws, the handler logs the error and
    shows the connectivity message; both input fields keep their values,
    the storage is not called and no redirect is signalled. *)
Theorem handleLogin_network_error env w e :
  fetched login_url (trace (handleLogin env w)) = [FetchRejects e] ->
  let r := handleLogin env w in
  alerts (trace r)
  = [("Error",
      JStr "Network error. Please check your connection and try again.", [])]
  /\ In (EvConsoleError "Login error:" e) (trace r)
  /\ username (world r) = username w
  /\ password (world r) = password w
  /\ storage (world r) = storage w
  /\ storage_ops (trace r) = []
  /\ redirects (trace r) = [].
Proof.
  intros Hthrown r. subst r.
  run_cases (handleLogin env w).
  all: simplify_eq.
  repeat split. cbn. auto.
Qed.

(** X7.  When the login request is answered, with any status, by a body
    that is not JSON, the handler shows the connectivity message, keeps
    both input fields, calls no storage and signals no redirect. *)
Theorem handleLogin_unparseable_body env w resp e :
  fetched login_url (trace (handleLogin env w)) = [FetchResolves resp] ->
  json resp = JsonRejects e ->
  let r := handleLogin env w in
  alerts (trace r)
  = [("Error",
      JStr "Network error. Please check your connection and try again.", [])]
  /\ In (EvConsoleError "Login error:" e) (trace r)
  /\ username (world r) = username w
  /\ password (world r) = password w
  /\ storage (world r) = storage w
  /\ storage_ops (trace r) = []
  /\ redirects (trace r) = [].
Proof.
  intros Hdone Hjson r. subst r.
  run_cases (handleLogin env w).
  all: simplify_eq.
  all: merge_equations.
  repeat split. cbn. auto.
Qed.

(** ** Login submission: what the handler never does *)

(** X8.  The handler itself never navigates: no redirect is signalled
    during a submission and the route is unchanged, whatever the server and
    the storage do. *)
Theorem handleLogin_never_navigates env w :
  let r := handleLogin env w in
  redirects (trace r) = [] /\ route (world r) = route w.
Proof.
  intros r. subst r.
  run_cases (handleLogin env w).
  all: split; reflexivity.
Qed.

(** X9.  An alert of the handler carries a button only when it is the
    success alert; that button is the one that redirects to the
    authenticated area, and by then the three session keys are stored. *)
Theorem handleLogin_redirect_offered_after_store env w title message buttons b :
  In (title, message, buttons) (alerts (trace (handleLogin env w))) ->
  In b buttons ->
  let r := handleLogin env w in
  title = "Success"
  /\ b = ok_button
  /\ all_present (storage (world r)).
Proof.
  intros Halert Hbutton r. subst r.
  run_cases (handleLogin env w).
  all: cbn in Halert.
  all: repeat match goal with
              | Hor : _ \/ _ |- _ => destruct Hor
              | Hf : False |- _ => destruct Hf
              end.
  all: simplify_eq.
  all: try (destruct Hbutton; fail).
  all: destruct Hbutton as [<- | []].
  all: match goal with
       | Hl : mapM string_pair _ = Some _ |- _ =>
           apply string_pairs_session in Hl;
           destruct Hl as (? & ? & ? & _ & _ & _ & ->)
       end.
  all: repeat split; apply session_written_all_present.
Qed.

(** X10.  The handler never changes the username field, and it changes the
    password field only by clearing it after an answer whose status is not
    2xx. *)
Theorem handleLogin_keeps_fields env w :
  let r := handleLogin env w in
  username (world r) = username w
  /\ (password (world r) = password w
      \/ (password (world r) = ""
          /\ exists resp,
               fetched login_url (trace r) = [FetchResolves resp]
               /\ response_ok resp = false)).
Proof.
  intros r. subst r.
  run_cases (handleLogin env w).
  all: split; [reflexivity |].
  all: try (left; reflexivity).
  all: right; split; [reflexivity | eexists; split; [reflexivity | assumption]].
Qed.

(** The requests of a submission that passes the validation. *)
Lemma handleLogin_calls env w :
  username w <> "" -> password w <> "" ->
  network_calls (trace (handleLogin env w))
  = [login_request (username w) (password w)].
Proof.
  intros Hu Hp.
  pose proof (validation_passes w Hu Hp) as Hvalid.
  run_cases (handleLogin env w).
  all: first [reflexivity | congruence].
Qed.

(** X11.  A submission with both inputs non-empty sends exactly one
    request, whatever happens next: the POST to the login URL whose body is
    the JSON text of the trimmed username and the password as typed. *)
Theorem handleLogin_sends_one_request env w :
  username w <> "" -> password w <> "" ->
  network_calls (trace (handleLogin env w))
  = [{| url := "http://192.168.1.20:5000/auth/login";
        method := "POST";
        headers := [("Content-Type", "application/json")];
        body := serialize
                  (JObj [("username", JStr (JSString.trim (username w)));
                         ("password", JStr (password w))]) |}].
Proof.
  exact (handleLogin_calls env w).
Qed.

(** ** The username that reaches the server *)

Lemma trimStart_units_app_last (l : list ascii) (c : ascii) :
  JSString.is_WhiteSpace c = false ->
  JSString.trimStart_units (l ++ [c])%list
  = (JSString.trimStart_units l ++ [c])%list.
Proof.
  intros Hc. induction l as [| x l IH]; cbn.
  - now rewrite Hc.
  - destruct (JSString.is_WhiteSpace x); [exact IH | reflexivity].
Qed.

Lemma trimStart_units_fixed (l : list ascii) :
  JSString.trimStart_units (JSString.trimStart_units l)
  = JSString.trimStart_units l.
Proof.
  induction l as [| x l IH]; cbn; [reflexivity |].
  destruct (JSString.is_WhiteSpace x) eqn:Hx; [exact IH |].
  cbn. now rewrite Hx.
Qed.

(** Trimming the end of a list that starts with a character that is not
    white space leaves that start in place. *)
Lemma trimEnd_units_keeps_start (l : list ascii) :
  JSString.trimStart_units l = l ->
  JSString.trimStart_units
    (rev (JSString.trimStart_units (rev l)))
  = rev (JSString.trimStart_units (rev l)).
Proof.
  destruct l as [| c l]; [reflexivity |].
  cbn [JSString.trimStart_units].
  destruct (JSString.is_WhiteSpace c) eqn:Hc.
  - intros Hfix. exfalso.
    assert (length (JSString.trimStart_units l) <= length l)%nat as Hlen.
    { clear. induction l as [| x l IH]; cbn; [lia |].
      destruct (JSString.is_WhiteSpace x); cbn; lia. }
    rewrite Hfix in Hlen. cbn in Hlen. lia.
  - intros _. cbn [rev].
    rewrite (trimStart_units_app_last _ _ Hc), rev_app_distr. cbn.
    now rewrite Hc.
Qed.

Lemma trim_idempotent (s : string) :
  JSString.trim (JSString.trim s) = JSString.trim s.
Proof.
  unfold JSString.trim, JSString.trimEnd, JSString.trimStart.
  rewrite !list_ascii_of_string_of_list_ascii.
  apply (f_equal string_of_list_ascii).
  rewrite (trimEnd_units_keeps_start _ (trimStart_units_fixed _)).
  rewrite rev_involutive.
  exact (trimEnd_units_keeps_start _ (trimStart_units_fixed _)).
Qed.

(** X12.  The username reaches the server trimmed: a submission whose
    username has white space around a non-empty core sends the same
    request as the submission of the core alone. *)
Theorem handleLogin_sends_trimmed_username env w :
  JSString.trim (username w) <> "" -> password w <> "" ->
  network_calls
    (trace (handleLogin env (with_username (JSString.trim (username w)) w)))
  = network_calls (trace (handleLogin env w)).
Proof.
  intros Hcore Hp.
  assert (username w <> "") as Hu.
  { intros Hempty. apply Hcore. rewrite Hempty. reflexivity. }
  rewrite (handleLogin_calls env w Hu Hp).
  rewrite (handleLogin_calls env
             (with_username (JSString.trim (username w)) w) Hcore Hp).
  cbn [username password with_username]. unfold login_request.
  now rewrite trim_idempotent.
Qed.

(** ** Login submission: the accepted answer, in general *)

(** What a 2xx answer with two string tokens and a user object leaves in
    the store when the storage accepts the write. *)
Lemma handleLogin_success_storage env w resp props a t uprops uj :
  fetched login_url (trace (handleLogin env w)) = [FetchResolves resp] ->
  response_ok resp = true ->
  json resp = JsonResolves (JObj props) ->
  own_property props "access_token" = Some (JStr a) ->
  own_property props "token_type" = Some (JStr t) ->
  own_property props "user" = Some (JObj uprops) ->
  serialize (JObj uprops) = Some uj ->
  storage_fault env
    (MultiSet [("access_token", JStr a); ("token_type", JStr t);
               ("user_data", JStr uj)]) = None ->
  storage (world (handleLogin env w)) = session_written a t uj (storage w).
Proof.
  intros Hdone Hok Hjson Hat Htt Huser Huj Hwrite.
  destruct (login_response_inv _ _ _ Hdone) as (Hu & Hp & Hfetch).
  pose proof (validation_passes w Hu Hp) as Hvalid.
  assert (JSON_stringify (JObj uprops) = JStr uj) as Hstr
    by (unfold JSON_stringify; now rewrite Huj).
  clear Hdone. run_path.
  rewrite Hat, Htt, Huser. cbn [default from_option id].
  rewrite Hstr, string_pairs_strings, Hwrite. cbv beta iota.
  destruct (ToString (default JUndefined (own_property uprops "username")));
    reflexivity.
Qed.

(** X13.  For every access token, token type and user object of a 2xx
    answer, when the storage accepts the write and the username converts
    to a string, the three keys hold the two tokens and the JSON text of
    the user, and the success alert greets that username and carries the
    redirect button. *)
Theorem handleLogin_success_stores_tokens
    env w resp props a t uprops uj shown :
  fetched login_url (trace (handleLogin env w)) = [FetchResolves resp] ->
  response_ok resp = true ->
  json resp = JsonResolves (JObj props) ->
  own_property props "access_token" = Some (JStr a) ->
  own_property props "token_type" = Some (JStr t) ->
  own_property props "user" = Some (JObj uprops) ->
  serialize (JObj uprops) = Some uj ->
  storage_fault env
    (MultiSet [("access_token", JStr a); ("token_type", JStr t);
               ("user_data", JStr uj)]) = None ->
  ToString (default JUndefined (own_property uprops "username")) = Some shown ->
  let r := handleLogin env w in
  storage (world r) = session_written a t uj (storage w)
  /\ alerts (trace r)
     = [("Success", JStr ("Welcome back, " +:+ shown +:+ "!"), [ok_button])].
Proof.
  intros Hdone Hok Hjson Hat Htt Huser Huj Hwrite Hshown r.
  split.
  { exact (handleLogin_success_storage env w resp props a t uprops uj
             Hdone Hok Hjson Hat Htt Huser Huj Hwrite). }
  destruct (login_response_inv _ _ _ Hdone) as (Hu & Hp & Hfetch).
  pose proof (validation_passes w Hu Hp) as Hvalid.
  assert (JSON_stringify (JObj uprops) = JStr uj) as Hstr
    by (unfold JSON_stringify; now rewrite Huj).
  subst r. clear Hdone. run_path.
  rewrite Hat, Htt, Huser. cbn [default from_option id].
  rewrite Hstr, string_pairs_strings, Hwrite. cbv beta iota.
  rewrite Hshown. reflexivity.
Qed.

(** X14.  A 2xx answer whose [user] is [null]: the three keys are written,
    with the text [null] as user data, and then reading the username
    throws; the handler shows the warning that the session was not stored,
    although it is, and offers no redirect. *)
Theorem handleLogin_null_user_stored_but_warned env w resp props a t :
  fetched login_url (trace (handleLogin env w)) = [FetchResolves resp] ->
  response_ok resp = true ->
  json resp = JsonResolves (JObj props) ->
  own_property props "access_token" = Some (JStr a) ->
  own_property props "token_type" = Some (JStr t) ->
  own_property props "user" = Some JNull ->
  storage_fault env
    (MultiSet [("access_token", JStr a); ("token_type", JStr t);
               ("user_data", JStr "null")]) = None ->
  let r := handleLogin env w in
  storage (world r) = session_written a t "null" (storage w)
  /\ alerts (trace r)
     = [("Warning",
         JStr "Login successful but failed to store session data", [])]
  /\ redirects (trace r) = [].
Proof.
  intros Hdone Hok Hjson Hat Htt Huser Hwrite r.
  destruct (login_response_inv _ _ _ Hdone) as (Hu & Hp & Hfetch).
  pose proof (validation_passes w Hu Hp) as Hvalid.
  assert (JSON_stringify (number := number) JNull = JStr "null") as Hstr
    by reflexivity.
  subst r. clear Hdone. run_path.
  rewrite Hat, Htt, Huser. cbn [default from_option id].
  rewrite Hstr, string_pairs_strings, Hwrite. cbv beta iota.
  repeat split.
Qed.

(** ** Login, then bootstrap *)

(** X15.  What a login stores is what the next bootstrap sends: after a
    2xx answer with non-empty string tokens and a user object has been
    stored, a bootstrap that can read the store sends exactly the GET
    whose Authorization header is that token type, a space and that access
    token. *)
Theorem login_then_bootstrap_sends_tokens
    env env' w resp props a t uprops uj :
  fetched login_url (trace (handleLogin env w)) = [FetchResolves resp] ->
  response_ok resp = true ->
  json resp = JsonResolves (JObj props) ->
  own_property props "access_token" = Some (JStr a) -> a <> "" ->
  own_property props "token_type" = Some (JStr t) -> t <> "" ->
  own_property props "user" = Some (JObj uprops) ->
  serialize (JObj uprops) = Some uj ->
  storage_fault env
    (MultiSet [("access_token", JStr a); ("token_type", JStr t);
               ("user_data", JStr uj)]) = None ->
  storage_fault env' (MultiGet session_keys) = None ->
  network_calls
    (trace (checkExistingAuth env' (world (handleLogin env w))))
  = [verify_request t a].
Proof.
  intros Hdone Hok Hjson Hat Ha Htt Ht Huser Huj Hwrite Hread.
  pose proof (handleLogin_success_storage env w resp props a t uprops uj
                Hdone Hok Hjson Hat Htt Huser Huj Hwrite) as Hstore.
  assert (uj <> "") as Hu.
  { cbn in Huj. injection Huj as <-. discriminate. }
  remember (world (handleLogin env w)) as w1 eqn:Hw1. clear Hw1 Hdone.
  assert (storage w1 !! "access_token" = Some a
          /\ storage w1 !! "token_type" = Some t
          /\ storage w1 !! "user_data" = Some uj) as (Hka & Hkt & Hku).
  { rewrite Hstore. unfold session_written. by simplify_map_eq. }
  unfold session_keys in Hread.
  run_cases (checkExistingAuth env' w1).
  all: rewrite ?Hka, ?Hkt, ?Hku in *.
  all: simplify_eq.
  all: try reflexivity.
  all: rewrite (truthy_nonempty _ Ha), (truthy_nonempty _ Ht),
         (truthy_nonempty _ Hu) in *; discriminate.
Qed.

(** ** Sessions of operations *)

(** One operation keeps the session triple whole. *)
Lemma perform_keeps_triple (op : operation) env w :
  all_or_none (storage w) -> all_or_none (storage (world (perform op env w))).
Proof.
  intros Hinv.
  assert (storage (world (perform op env w)) = storage w
          \/ (exists a b c,
                 storage (world (perform op env w))
                 = session_written a b c (storage w))
          \/ storage (world (perform op env w)) = session_removed (storage w))
    as [-> | [(a & b & c & ->) | ->]].
  { destruct op; unfold perform.
    - run_cases (checkExistingAuth env w); auto.
    - cbn. auto.
    - cbn. auto.
    - run_cases (handleLogin env w).
      all: try (left; reflexivity).
      all: match goal with
           | Hl : mapM string_pair _ = Some _ |- _ =>
               apply string_pairs_session in Hl;
               destruct Hl as (? & ? & ? & _ & _ & _ & ->)
           end.
      all: right; left; do 3 eexists; reflexivity.
    - cbn. auto.
    - cbn. auto.
    - cbn. auto.
    - destruct b as [txt [href]]. cbn. auto. }
  - exact Hinv.
  - left. apply session_written_all_present.
  - right. apply session_removed_all_absent.
Qed.

(** One operation never rejects, and leaves an idle form idle. *)
Lemma perform_settles (op : operation) env w :
  outcome (perform op env w) = Normal tt
  /\ (isLoading w = false -> isLoading (world (perform op env w)) = false).
Proof.
  destruct op; unfold perform.
  - run_cases (checkExistingAuth env w); split; auto.
  - cbn. auto.
  - cbn. auto.
  - run_cases (handleLogin env w); split; auto.
  - cbn. auto.
  - cbn. auto.
  - cbn. auto.
  - destruct b as [txt [href]]. cbn. auto.
Qed.

(** X16.  No handler of the component lets an exception escape: every
    operation completes normally, whatever the server and the storage
    do. *)
Theorem perform_never_rejects (op : operation) env w :
  outcome (perform op env w) = Normal tt.
Proof.
  exact (proj1 (perform_settles op env w)).
Qed.

(** X17.  Along any sequence of operations, each in any environment, a
    form that starts idle with the session triple whole (all three keys or
    none) is idle with the triple whole at the end. *)
Theorem session_stays_whole_and_idle
    (steps : list (Env (number := number) * operation)) w :
  all_or_none (storage w) -> isLoading w = false ->
  all_or_none (storage (perform_all steps w))
  /\ isLoading (perform_all steps w) = false.
Proof.
  revert w. induction steps as [| [env op] steps IH]; intros w Hinv Hidle.
  - split; assumption.
  - cbn [perform_all fst snd]. apply IH.
    + apply perform_keeps_triple. exact Hinv.
    + apply (proj2 (perform_settles op env w)). exact Hidle.
Qed.

End Properties.

(** * The statements at concrete servers, devices and inputs *)

(** ** Validation *)

(** An empty username with a password typed in. *)
Lemma handleLogin_rejects_empty_input_witness :
  (username (Sample.form "" "secret" ∅) = ""
   \/ password (Sample.form "" "secret" ∅) = "")
  /\ alerts (trace (handleLogin Sample.offline (Sample.form "" "secret" ∅)))
     = [("Error", JStr "Please enter both username and password", [])]
  /\ network_calls
       (trace (handleLogin Sample.offline (Sample.form "" "secret" ∅))) = [].
Proof.
  assert (username (Sample.form "" "secret" ∅) = ""
          \/ password (Sample.form "" "secret" ∅) = "") as Hempty
    by (left; reflexivity).
  split; [exact Hempty |].
  pose proof (handleLogin_rejects_empty_input
                Sample.offline (Sample.form "" "secret" ∅) Hempty)
    as (_ & Halerts & Hcalls & _).
  split; [exact Halerts | exact Hcalls].
Defined.

(** C1 fails as stated: a username of three spaces, which trims to the
    empty string, and a password of three spaces both pass the validation,
    and the login request is sent. *)
Lemma handleLogin_sends_blank_input :
  JSString.trim (username (Sample.form "   " "secret" ∅)) = ""
  /\ network_calls
       (trace (handleLogin Sample.offline (Sample.form "   " "secret" ∅)))
     = [login_request "   " "secret"]
  /\ JSString.trim (password (Sample.form "alice" "   " ∅)) = ""
  /\ network_calls
       (trace (handleLogin Sample.offline (Sample.form "alice" "   " ∅)))
     = [login_request "alice" "   "].
Proof. repeat split. Qed.

(** ** Session bootstrap *)

(** A stored session, no server within reach. *)
Lemma checkExistingAuth_verify_throws_redirects_witness :
  fetched verify_url
    (trace (checkExistingAuth Sample.offline (mount Sample.stored)))
  = [FetchRejects Sample.network_down]
  /\ redirects (trace (checkExistingAuth Sample.offline (mount Sample.stored)))
     = ["/(tabs)"]
  /\ storage (world (checkExistingAuth Sample.offline (mount Sample.stored)))
     = Sample.stored.
Proof.
  split; [reflexivity |].
  pose proof (checkExistingAuth_verify_throws_redirects
                Sample.offline (mount Sample.stored)
                "t1" "Bearer" alice_json Sample.network_down
                eq_refl eq_refl eq_refl eq_refl)
    as (Hnav & _ & _ & Hstore & _).
  split; [exact Hnav | exact Hstore].
Defined.



(** A stored session that the server rejects with 401. *)
Lemma checkExistingAuth_invalid_session_cleared_witness :
  all_absent
    (storage
       (world (checkExistingAuth (Sample.server 401 JNull)
                 (mount Sample.stored))))
  /\ redirects
       (trace (checkExistingAuth (Sample.server 401 JNull)
                 (mount Sample.stored))) = []
  /\ visible
       (world (checkExistingAuth (Sample.server 401 JNull)
                 (mount Sample.stored))) = LoginForm.
Proof.
  pose proof (checkExistingAuth_invalid_session_cleared
                (Sample.server 401 JNull) (mount Sample.stored)
                "t1" "Bearer" alice_json
                {| status := 401; json := JsonResolves JNull |}
                eq_refl ltac:(discriminate)
                eq_refl ltac:(discriminate)
                eq_refl ltac:(discriminate)
                eq_refl eq_refl)
    as (_ & Hcleared).
  destruct (Hcleared eq_refl) as (_ & Habsent & Hnav & Hform).
  split; [exact Habsent |]. split; [exact Hnav | exact Hform].
Defined.

(** C6, at the input on which the code fails it.  The server rejects the
    stored session with 401 and the storage then fails to remove the keys:
    the rejection of [multiRemove] is caught by the [catch] written for
    the verify request, so the three keys are still stored and the
    bootstrapper signals the redirect to the authenticated area, with the
    session that the server has just rejected. *)
Lemma checkExistingAuth_removal_failure_redirects :
  fetched verify_url
    (trace (checkExistingAuth (Sample.server_readonly 401 JNull)
              (mount Sample.stored)))
  = [FetchResolves {| status := 401; json := JsonResolves JNull |}]
  /\ storage
       (world (checkExistingAuth (Sample.server_readonly 401 JNull)
                 (mount Sample.stored))) = Sample.stored
  /\ redirects
       (trace (checkExistingAuth (Sample.server_readonly 401 JNull)
                 (mount Sample.stored))) = ["/(tabs)"]
  /\ storage_ops
       (trace (checkExistingAuth (Sample.server_readonly 401 JNull)
                 (mount Sample.stored)))
     = [(MultiGet session_keys, None);
        (MultiRemove session_keys, Some Sample.disk_full)].
Proof. repeat split. Qed.

(** Two runs on a stored session against a server that answers 200. *)
Lemma checkExistingAuth_twice_same_redirect_witness :
  always_2xx (Sample.server 200 JNull)
  /\ redirects
       (trace (checkExistingAuth (Sample.server 200 JNull)
                 (mount Sample.stored)))
     = redirects
         (trace (checkExistingAuth (Sample.server 200 JNull)
                   (world (checkExistingAuth (Sample.server 200 JNull)
                             (mount Sample.stored))))).
Proof.
  assert (always_2xx (Sample.server 200 JNull)) as Hsrv.
  { intros req. eexists. split; reflexivity. }
  split; [exact Hsrv |].
  exact (proj1 (checkExistingAuth_twice_same_redirect
                  (Sample.server 200 JNull) (mount Sample.stored) Hsrv)).
Defined.

(** ** Login submission *)

(** The server accepts alice; the storage works. *)
Lemma handleLogin_success_stores_session_witness :
  storage
    (world (handleLogin (Sample.server 200 Sample.login_body)
              (Sample.form "alice" "secret" ∅)))
  = Sample.stored
  /\ alerts
       (trace (handleLogin (Sample.server 200 Sample.login_body)
                 (Sample.form "alice" "secret" ∅)))
     = [("Success", JStr "Welcome back, alice!", [ok_button])]
  /\ redirects
       (trace (press ok_button (Sample.server 200 Sample.login_body)
                 (world (handleLogin (Sample.server 200 Sample.login_body)
                           (Sample.form "alice" "secret" ∅)))))
     = ["/(tabs)"].
Proof.
  split; [reflexivity |].
  pose proof (handleLogin_success_stores_session
                (Sample.server 200 Sample.login_body)
                (Sample.form "alice" "secret" ∅)
                {| status := 200; json := JsonResolves Sample.login_body |}
                Sample.login_props
                eq_refl eq_refl eq_refl eq_refl eq_refl eq_refl eq_refl)
    as (_ & _ & _ & Halerts & _ & Hnav).
  split; [exact Halerts | exact Hnav].
Defined.

(** The server rejects the credentials, once with an [error] field and
    once with an empty object. *)
Lemma handleLogin_failure_shows_error_witness :
  (alerts
     (trace (handleLogin
               (Sample.server 401 (JObj [("error", JStr "bad credentials")]))
               (Sample.form "alice" "wrong" ∅)))
   = [("Error", JStr "bad credentials", [])]
   /\ password
        (world (handleLogin
                  (Sample.server 401 (JObj [("error", JStr "bad credentials")]))
                  (Sample.form "alice" "wrong" ∅))) = ""
   /\ username
        (world (handleLogin
                  (Sample.server 401 (JObj [("error", JStr "bad credentials")]))
                  (Sample.form "alice" "wrong" ∅))) = "alice")
  /\ alerts
       (trace (handleLogin (Sample.server 401 (JObj []))
                 (Sample.form "alice" "wrong" ∅)))
     = [("Error", JStr "Login failed. Please try again.", [])].
Proof.
  split.
  - pose proof (handleLogin_failure_shows_error
                  (Sample.server 401 (JObj [("error", JStr "bad credentials")]))
                  (Sample.form "alice" "wrong" ∅)
                  {| status := 401;
                     json := JsonResolves
                               (JObj [("error", JStr "bad credentials")]) |}
                  (JObj [("error", JStr "bad credentials")])
                  eq_refl eq_refl eq_refl
                  ltac:(discriminate) ltac:(discriminate))
      as (Halerts & Hpassword & Husername & _).
    split; [exact Halerts |]. split; [exact Hpassword | exact Husername].
  - exact (proj1 (handleLogin_failure_shows_error
                    (Sample.server 401 (JObj []))
                    (Sample.form "alice" "wrong" ∅)
                    {| status := 401; json := JsonResolves (JObj []) |}
                    (JObj [])
                    eq_refl eq_refl eq_refl
                    ltac:(discriminate) ltac:(discriminate))).
Defined.

(** C4 fails as stated.  A 401 answer whose [error] field is present and
    is the empty string: the error shown is the generic message, not the
    field.  A 500 answer whose body is not JSON: the error shown is the
    connectivity message and the password field is not cleared. *)
Lemma handleLogin_failure_error_not_shown :
  (response_ok
     {| status := 401;
        json := JsonResolves (number := safe_integer) (JObj [("error", JStr "")]) |}
   = false
   /\ own_property (number := safe_integer) [("error", JStr "")] "error" = Some (JStr "")
   /\ alerts
        (trace (handleLogin (Sample.server 401 (JObj [("error", JStr "")]))
                  (Sample.form "alice" "wrong" ∅)))
      = [("Error", JStr "Login failed. Please try again.", [])])
  /\ (response_ok (number := safe_integer)
        {| status := 500; json := JsonRejects Sample.not_json |} = false
      /\ alerts
           (trace (handleLogin (Sample.server_html 500)
                     (Sample.form "alice" "wrong" ∅)))
         = [("Error",
             JStr "Network error. Please check your connection and try again.",
             [])]
      /\ password
           (world (handleLogin (Sample.server_html 500)
                     (Sample.form "alice" "wrong" ∅))) = "wrong").
Proof. repeat split. Qed.

(** Every way a submission can end, from the idle form. *)
Lemma handleLogin_clears_busy_witness :
  isLoading (world (handleLogin Sample.offline
                      (Sample.form "alice" "secret" ∅))) = false
  /\ isLoading (world (handleLogin (Sample.server 200 Sample.login_body)
                         (Sample.form "alice" "secret" ∅))) = false
  /\ isLoading (world (handleLogin (Sample.server_readonly 200 Sample.login_body)
                         (Sample.form "alice" "secret" ∅))) = false
  /\ isLoading (world (handleLogin (Sample.server 401 JNull)
                         (Sample.form "alice" "secret" ∅))) = false
  /\ isLoading (world (handleLogin Sample.offline
                         (Sample.form "" "" ∅))) = false.
Proof.
  pose proof (fun env w (Hidle : isLoading w = false) =>
                proj2 (handleLogin_clears_busy env w (or_introl Hidle)))
    as Hclears.
  split; [apply Hclears; reflexivity |].
  split; [apply Hclears; reflexivity |].
  split; [apply Hclears; reflexivity |].
  split; apply Hclears; reflexivity.
Defined.

(** The server accepts alice; the device fails to write. *)
Lemma handleLogin_storage_failure_no_redirect_witness :
  storage_ops
    (trace (handleLogin (Sample.server_readonly 200 Sample.login_body)
              (Sample.form "alice" "secret" ∅)))
  = [(MultiSet [("access_token", JStr "t1"); ("token_type", JStr "Bearer");
                ("user_data", JStr alice_json)],
      Some Sample.disk_full)]
  /\ alerts
       (trace (handleLogin (Sample.server_readonly 200 Sample.login_body)
                 (Sample.form "alice" "secret" ∅)))
     = [("Warning",
         JStr "Login successful but failed to store session data", [])]
  /\ redirects
       (trace (handleLogin (Sample.server_readonly 200 Sample.login_body)
                 (Sample.form "alice" "secret" ∅))) = [].
Proof.
  split; [reflexivity |].
  pose proof (handleLogin_storage_failure_no_redirect
                (Sample.server_readonly 200 Sample.login_body)
                (Sample.form "alice" "secret" ∅)
                {| status := 200; json := JsonResolves Sample.login_body |}
                [("access_token", JStr "t1"); ("token_type", JStr "Bearer");
                 ("user_data", JStr alice_json)]
                Sample.disk_full
                eq_refl eq_refl eq_refl)
    as (Halerts & Hnav & _).
  split; [exact Halerts | exact Hnav].
Defined.

(** ** The session triple *)

(** A login on an empty store, then a bootstrap that finds the session
    rejected: the triple is whole after each. *)
Lemma storage_mutations_keep_session_whole_witness :
  all_or_none
    (storage
       (world (perform PressLogin (Sample.server 200 Sample.login_body)
                 (Sample.form "alice" "secret" ∅))))
  /\ all_or_none
       (storage
          (world (perform OnMount (Sample.server 401 JNull)
                    (mount Sample.stored)))).
Proof.
  split.
  - refine (proj2 (proj2 (storage_mutations_keep_session_whole
                            PressLogin (Sample.server 200 Sample.login_body)
                            (Sample.form "alice" "secret" ∅))) _).
    right. repeat split.
  - refine (proj2 (proj2 (storage_mutations_keep_session_whole
                            OnMount (Sample.server 401 JNull)
                            (mount Sample.stored))) _).
    left. repeat split; eexists; reflexivity.
Defined.

(** ** The further properties at concrete inputs *)

(** A store without the token type. *)
Lemma checkExistingAuth_incomplete_session_shows_form_witness :
  network_calls
    (trace (checkExistingAuth Sample.offline (mount Sample2.partial_store)))
  = []
  /\ visible
       (world (checkExistingAuth Sample.offline (mount Sample2.partial_store)))
     = LoginForm.
Proof.
  pose proof (checkExistingAuth_incomplete_session_shows_form
                Sample.offline (mount Sample2.partial_store)
                (or_intror (or_introl (or_introl eq_refl))))
    as (Hcalls & _ & _ & Hform).
  split; [exact Hcalls | exact Hform].
Defined.

(** A device whose storage cannot be read. *)
Lemma checkExistingAuth_read_failure_shows_form_witness :
  redirects
    (trace (checkExistingAuth Sample2.unreadable (mount Sample.stored))) = []
  /\ visible
       (world (checkExistingAuth Sample2.unreadable (mount Sample.stored)))
     = LoginForm.
Proof.
  pose proof (checkExistingAuth_read_failure_shows_form
                Sample2.unreadable (mount Sample.stored) Sample.disk_full
                eq_refl)
    as (_ & _ & Hnav & _ & Hform).
  split; [exact Hnav | exact Hform].
Defined.

(** No server within reach of the form. *)
Lemma handleLogin_network_error_witness :
  alerts
    (trace (handleLogin Sample.offline (Sample.form "alice" "secret" ∅)))
  = [("Error",
      JStr "Network error. Please check your connection and try again.", [])]
  /\ password
       (world (handleLogin Sample.offline (Sample.form "alice" "secret" ∅)))
     = "secret".
Proof.
  pose proof (handleLogin_network_error
                Sample.offline (Sample.form "alice" "secret" ∅)
                Sample.network_down eq_refl)
    as (Halerts & _ & _ & Hpassword & _).
  split; [exact Halerts | exact Hpassword].
Defined.

(** A 200 answer whose body is a page of HTML. *)
Lemma handleLogin_unparseable_body_witness :
  alerts
    (trace (handleLogin (Sample.server_html 200)
              (Sample.form "alice" "secret" ∅)))
  = [("Error",
      JStr "Network error. Please check your connection and try again.", [])]
  /\ storage_ops
       (trace (handleLogin (Sample.server_html 200)
                 (Sample.form "alice" "secret" ∅))) = [].
Proof.
  pose proof (handleLogin_unparseable_body
                (Sample.server_html 200) (Sample.form "alice" "secret" ∅)
                {| status := 200; json := JsonRejects Sample.not_json |}
                Sample.not_json eq_refl eq_refl)
    as (Halerts & _ & _ & _ & _ & Hops & _).
  split; [exact Halerts | exact Hops].
Defined.

(** The button of the alert shown to alice. *)
Lemma handleLogin_redirect_offered_after_store_witness :
  all_present
    (storage
       (world (handleLogin (Sample.server 200 Sample.login_body)
                 (Sample.form "alice" "secret" ∅)))).
Proof.
  exact (proj2 (proj2
    (handleLogin_redirect_offered_after_store
       (Sample.server 200 Sample.login_body) (Sample.form "alice" "secret" ∅)
       "Success" (JStr "Welcome back, alice!") [ok_button] ok_button
       (or_introl eq_refl) (or_introl eq_refl)))).
Defined.

(** The one request of alice's submission. *)
Lemma handleLogin_sends_one_request_witness :
  network_calls
    (trace (handleLogin Sample.offline (Sample.form "alice" "secret" ∅)))
  = [login_request "alice" "secret"].
Proof.
  exact (handleLogin_sends_one_request
           Sample.offline (Sample.form "alice" "secret" ∅)
           ltac:(discriminate) ltac:(discriminate)).
Defined.

(** A username typed with spaces around it. *)
Lemma handleLogin_sends_trimmed_username_witness :
  network_calls
    (trace (handleLogin Sample.offline (Sample.form "alice" "secret" ∅)))
  = network_calls
      (trace (handleLogin Sample.offline (Sample.form "  alice " "secret" ∅))).
Proof.
  exact (handleLogin_sends_trimmed_username
           Sample.offline (Sample.form "  alice " "secret" ∅)
           ltac:(discriminate) ltac:(discriminate)).
Defined.

(** The accepted login of alice, through the general statement. *)
Lemma handleLogin_success_stores_tokens_witness :
  storage
    (world (handleLogin (Sample.server 200 Sample.login_body)
              (Sample.form "alice" "secret" ∅)))
  = session_written "t1" "Bearer" alice_json ∅
  /\ alerts
       (trace (handleLogin (Sample.server 200 Sample.login_body)
                 (Sample.form "alice" "secret" ∅)))
     = [("Success", JStr "Welcome back, alice!", [ok_button])].
Proof.
  exact (handleLogin_success_stores_tokens
           (Sample.server 200 Sample.login_body)
           (Sample.form "alice" "secret" ∅)
           {| status := 200; json := JsonResolves Sample.login_body |}
           Sample.login_props "t1" "Bearer" [("username", JStr "alice")]
           alice_json "alice"
           eq_refl eq_refl eq_refl eq_refl eq_refl eq_refl eq_refl eq_refl
           eq_refl).
Defined.

(** An accepted login whose user is null. *)
Lemma handleLogin_null_user_stored_but_warned_witness :
  storage
    (world (handleLogin (Sample.server 200 (JObj Sample2.null_user_props))
              (Sample.form "alice" "secret" ∅)))
  = session_written "t1" "Bearer" "null" ∅
  /\ alerts
       (trace (handleLogin (Sample.server 200 (JObj Sample2.null_user_props))
                 (Sample.form "alice" "secret" ∅)))
     = [("Warning",
         JStr "Login successful but failed to store session data", [])].
Proof.
  pose proof (handleLogin_null_user_stored_but_warned
                (Sample.server 200 (JObj Sample2.null_user_props))
                (Sample.form "alice" "secret" ∅)
                {| status := 200;
                   json := JsonResolves (JObj Sample2.null_user_props) |}
                Sample2.null_user_props "t1" "Bearer"
                eq_refl eq_refl eq_refl eq_refl eq_refl eq_refl eq_refl)
    as (Hstore & Halerts & _).
  split; [exact Hstore | exact Halerts].
Defined.

(** Alice logs in; the next bootstrap presents her tokens. *)
Lemma login_then_bootstrap_sends_tokens_witness :
  network_calls
    (trace (checkExistingAuth Sample.offline
              (world (handleLogin (Sample.server 200 Sample.login_body)
                        (Sample.form "alice" "secret" ∅)))))
  = [verify_request "Bearer" "t1"].
Proof.
  exact (login_then_bootstrap_sends_tokens
           (Sample.server 200 Sample.login_body) Sample.offline
           (Sample.form "alice" "secret" ∅)
           {| status := 200; json := JsonResolves Sample.login_body |}
           Sample.login_props "t1" "Bearer" [("username", JStr "alice")]
           alice_json
           eq_refl eq_refl eq_refl
           eq_refl ltac:(discriminate) eq_refl ltac:(discriminate)
           eq_refl eq_refl eq_refl eq_refl).
Defined.

(** A login, the press of OK, and a restart that finds the session
    rejected. *)
Lemma session_stays_whole_and_idle_witness :
  all_or_none
    (storage
       (perform_all Sample2.login_then_rejected
          (Sample.form "alice" "secret" ∅)))
  /\ isLoading
       (perform_all Sample2.login_then_rejected
          (Sample.form "alice" "secret" ∅)) = false.
Proof.
  refine (session_stays_whole_and_idle
            Sample2.login_then_rejected (Sample.form "alice" "secret" ∅)
            _ eq_refl).
  right. split; [reflexivity |]. split; reflexivity.
Defined.

